(** * AquaGenius WWTP designer: the sizing engine of [app.py]

    A shallow embedding of the calculation layer of the program (the
    constants class [C], the [Influent] data class, the four design rules
    [calc_cas], [calc_ifas], [calc_mbr], [calc_mbbr] and the helpers
    [_rect], [_circ], [_air_demand]) and of the properties that its
    specification states about them.  The page below the engine (widgets,
    session state, the PDF report) and the memoising decorator
    [st.cache_data] of the design rules are outside the embedding.

    Numbers.  Python's [float] is IEEE 754 binary64, which is what Rocq's
    primitive [float] is, so arithmetic is embedded operation by operation
    with the rounding it has in the program.  The fields of [Influent] are
    annotated [float] and are floats here; the integer literals of the
    program ([6], [24], [1000], [10], ...) are written as the floats that
    Python converts them to in mixed arithmetic, all of them exact.

    Exceptions.  A computation that may raise is a value of [result].

    Two bindings are kept apart.  The functions of the engine take the
    binding of the name [C] as a parameter: [C_class] is the program,
    [C_instance] what the same text computes on an object of the class.
    The last bit of [x ** 0.5] belongs to the C library, the class
    [Libm]. *)

From Stdlib Require Import ZArith List String Bool Lia.
From Stdlib Require Import Floats DecimalString.
Import ListNotations.

Set Warnings "-inexact-float".
Local Open Scope string_scope.
Local Open Scope float_scope.

(** ** Exceptions and the error monad *)

(** The exceptions a run of the engine can end in.  [KeyError],
    [TypeError], [ZeroDivisionError] and [ValueError] are Python's own;
    [InvalidUnit] and [InvalidInput] are the two error kinds that the
    specification names: no statement of the program raises them. *)
Inductive exn : Set :=
| KeyError
| TypeError
| ZeroDivisionError
| ValueError
| InvalidUnit
| InvalidInput.

Inductive result (A : Type) : Type :=
| Ok (a : A)
| Raise (e : exn).
Arguments Ok {A} a.
Arguments Raise {A} e.

Definition bind {A B : Type} (r : result A) (k : A -> result B) : result B :=
  match r with
  | Ok a => k a
  | Raise e => Raise e
  end.

Notation "x <- r ;; k" := (bind r (fun x => k))
  (at level 61, r at next level, right associativity).

Definition raises {A : Type} (r : result A) (e : exn) : Prop := r = Raise e.

Definition returns {A : Type} (r : result A) : bool :=
  match r with Ok _ => true | Raise _ => false end.

(** The exception a computation ends in, if any. *)
Definition outcome {A : Type} (r : result A) : option exn :=
  match r with Ok _ => None | Raise e => Some e end.

(** ** Dictionaries

    A Python [dict] keeps its entries in insertion order; it is an
    association list here, without repeated keys. *)
Definition dict (V : Type) : Type := list (string * V).

(** [d[k]] *)
Fixpoint getitem {V : Type} (d : dict V) (k : string) : result V :=
  match d with
  | [] => Raise KeyError
  | (k', v) :: d' => if String.eqb k' k then Ok v else getitem d' k
  end.

(** [d[k] = v] *)
Fixpoint setitem {V : Type} (d : dict V) (k : string) (v : V) : dict V :=
  match d with
  | [] => [(k, v)]
  | (k', v') :: d' =>
      if String.eqb k' k then (k', v) :: d' else (k', v') :: setitem d' k v
  end.

(** ** Constants: the data class [C] *)

Inductive Cfield : Set :=
| MGD_TO_M3D | MLD_TO_M3D | M3H_TO_GPM | M3_TO_GAL | M2_TO_FT2
| Y | KD | TSS_VSS | VSS_TSS
| O2_BOD | O2_N | SOTE | O2_AIR | RHO_AIR
| ALUM_P | METH_N | NAOH_H2S | NAOCL_H2S | H2SO4_NH3.

(** The default each field is declared with. *)
Definition C_default (f : Cfield) : float :=
  match f with
  | MGD_TO_M3D => 3785.41
  | MLD_TO_M3D => 1000
  | M3H_TO_GPM => 4.40287
  | M3_TO_GAL => 264.172
  | M2_TO_FT2 => 10.7639
  | Y => 0.60
  | KD => 0.06
  | TSS_VSS => 1.25
  | VSS_TSS => 0.8
  | O2_BOD => 1.5
  | O2_N => 4.57
  | SOTE => 0.30
  | O2_AIR => 0.232
  | RHO_AIR => 1.225
  | ALUM_P => 9.7
  | METH_N => 2.86
  | NAOH_H2S => 2.5
  | NAOCL_H2S => 4.5
  | H2SO4_NH3 => 0.6
  end.

(** What an attribute access on [C] evaluates to: a number, or the slot
    descriptor of the field ([<member 'SOTE' of 'C' objects>]). *)
Inductive attr : Set :=
| Num (x : float)
| Member (f : Cfield).

(** [C] is declared [@dataclass(slots=True)].  The decorator builds the
    class anew with [__slots__] and, since a slot cannot share its name
    with a class variable, drops the defaults from the class namespace:
    they survive only as defaults of the parameters of [__init__].  The
    program never instantiates [C]; it reads [C.MGD_TO_M3D], [C.O2_BOD],
    ... on the class itself, where each name is bound to its descriptor. *)
Definition C_class (f : Cfield) : attr := Member f.

(** The same access on an instance, [C().f], yields the default. *)
Definition C_instance (f : Cfield) : attr := Num (C_default f).

(** [x * a] for a float [x]: a descriptor implements no arithmetic, and
    Python answers [TypeError: unsupported operand type(s) for *]. *)
Definition mul_attr (x : float) (a : attr) : result float :=
  match a with
  | Num y => Ok (x * y)
  | Member _ => Raise TypeError
  end.

(** [a * b] for two attribute values. *)
Definition attr_mul (a b : attr) : result attr :=
  match a, b with
  | Num x, Num y => Ok (Num (x * y))
  | _, _ => Raise TypeError
  end.

(** [x / y] on floats: Python raises where IEEE 754 would answer an
    infinity or a NaN for a zero divisor. *)
Definition truediv (x y : float) : result float :=
  if y =? 0 then Raise ZeroDivisionError else Ok (x / y).

(** [x / a] for a float [x]. *)
Definition div_attr (x : float) (a : attr) : result float :=
  match a with
  | Num y => truediv x y
  | Member _ => Raise TypeError
  end.

(** ** The data model *)

Record Influent : Set := mkInfluent {
  flow : float;    (* raw value from user *)
  unit : string;   (* "MGD", "MLD", "m³/day" *)
  bod : float;
  tss : float;
  tkn : float;
  tp : float
}.

(** [Influent(flow, unit, bod, tss, tkn, tp)]: the [__init__] that
    [@dataclass] generates stores its six arguments; the class declares no
    [__post_init__], so nothing is inspected. *)
Definition Influent_init (flow : float) (unit : string)
    (bod tss tkn tp : float) : result Influent :=
  Ok (mkInfluent flow unit bod tss tkn tp).

Record Sizing : Type := mkSizing {
  tech : string;
  volume : float;
  dims : dict (dict string)
}.

Definition u_MGD : string := "MGD".
Definition u_MLD : string := "MLD".
Definition u_m3d : string := "m³/day".

(** The three units of the selection box. *)
Definition recognized (u : string) : bool :=
  String.eqb u u_MGD || String.eqb u u_MLD || String.eqb u u_m3d.

(** ** The platform

    [x ** 0.5] ends, for a finite positive [x] other than one, in the
    [pow] of the C library that CPython is linked with, whose last bit
    varies between libraries.  The engine is embedded over any such
    function. *)
Class Libm : Type := {
  (** [pow(x, 0.5)] *)
  libm_pow_half : float -> float
}.

(** An idealised library whose [pow] rounds correctly: the nearest float
    to the square root of [x] is the one [sqrt] answers.  The C libraries
    in use promise less (see [libm_glibc_points]); runs on this instance
    show the engine up to the last bit of a width. *)
#[export] Instance libm_correctly_rounded : Libm :=
  {| libm_pow_half := sqrt |}.

(** ** Numbers that are not floats

    [x ** 0.5] answers a [complex] for a negative [x], so the width and
    the length of a basin are a float or a complex number. *)
Inductive num : Set :=
| Real (x : float)
| Cplx (re im : float).

(** [cos] and [sin] of [math.pi * 0.5] in binary64. *)
Definition cos_half_pi : float := 6.123233995736766e-17.
Definition sin_half_pi : float := 1.

(** [x ** 0.5] on a float, by the cases of CPython's [float_pow] that an
    exponent of one half reaches: NaN, the infinities (both give [inf],
    one half not being an odd integer), the zeros (both give [0.0]), a
    negative base (handed over to [complex], whose polar formula takes
    the modulus [pow(abs x, 0.5)] and the phase [pi * 0.5]), one, and
    last the [pow] of the C library. *)
Definition pow_half {L : Libm} (x : float) : num :=
  if is_nan x then Real x
  else if is_infinity x then Real infinity
  else if x =? 0 then Real 0
  else if x <? 0 then
    let len := libm_pow_half (abs x) in
    Cplx (len * cos_half_pi) (len * sin_half_pi)
  else if x =? 1 then Real 1
  else Real (libm_pow_half x).

(** [k * w] for a float [k]: a complex [w] sees [k] as [complex(k, 0.0)]. *)
Definition scale (k : float) (w : num) : num :=
  match w with
  | Real x => Real (k * x)
  | Cplx re im => Cplx (k * re - 0 * im) (k * im + 0 * re)
  end.

(** [math.sqrt]: a negative argument, [-inf] included, is a
    [ValueError: math domain error]; [-0.0] and NaN pass. *)
Definition math_sqrt (x : float) : result float :=
  if x <? 0 then Raise ValueError else Ok (sqrt x).

(** [math.pi] *)
Definition math_pi : float := 0x1.921fb54442d18p+1.

(** ** Formatting: the format specification [.1f] *)

Definition dec (z : Z) : string :=
  NilZero.string_of_uint (N.to_uint (Z.to_N z)).

(** The number of tenths nearest to [m * 2^e], ties to even: Python
    formats the exact binary value. *)
Definition tenths (m : positive) (e : Z) : Z :=
  match e with
  | Zneg p =>
      let den := Z.pow_pos 2 p in
      let n := (10 * Zpos m)%Z in
      let q := (n / den)%Z in
      let r := (n mod den)%Z in
      match (2 * r ?= den)%Z with
      | Lt => q
      | Gt => (q + 1)%Z
      | Eq => if Z.even q then q else (q + 1)%Z
      end
  | _ => (10 * Zpos m * 2 ^ e)%Z
  end.

Definition sign_str (s : bool) : string := if s then "-" else EmptyString.

Definition fmt_1f (x : float) : string :=
  match Prim2SF x with
  | S754_nan => "nan"
  | S754_infinity s => sign_str s ++ "inf"
  | S754_zero s => sign_str s ++ "0.0"
  | S754_finite s m e =>
      let t := tenths m e in
      sign_str s ++ dec (t / 10) ++ "." ++ dec (t mod 10)
  end.

(** The sign bit, as the formatter of the imaginary part sees it. *)
Definition signbit (x : float) : bool :=
  match Prim2SF x with
  | S754_zero s | S754_infinity s | S754_finite s _ _ => s
  | S754_nan => false
  end.

(** [f"{w:.1f}"]: a complex number prints both parts, the imaginary one
    always signed, and a closing [j]. *)
Definition fmt_num (w : num) : string :=
  match w with
  | Real x => fmt_1f x
  | Cplx re im =>
      fmt_1f re ++ (if signbit im then EmptyString else "+")
        ++ fmt_1f im ++ "j"
  end.

(** ** Helpers *)

(** The default of the parameter [depth] of both helpers. *)
Definition default_depth : float := 4.5.

(** The three quantities of [_rect] before they are formatted:
    length [3*w], width [w] and depth. *)
Definition rect_lwd {L : Libm} (vol depth : float)
  : result (num * num * float) :=
  q <- truediv vol depth ;;
  let w := pow_half (q / 3) in
  Ok (scale 3 w, w, depth).

Definition _rect {L : Libm} (vol depth : float) : result (dict string) :=
  lwd <- rect_lwd vol depth ;;
  let '(l, w, d) := lwd in
  Ok [("Length (m)", fmt_num l); ("Width (m)", fmt_num w);
      ("Depth (m)", fmt_1f d)].

(** The diameter of [_circ] before it is formatted. *)
Definition circ_d (area : float) : result float :=
  r <- math_sqrt (area / math_pi) ;;
  Ok (2 * r).

Definition _circ (area depth : float) : result (dict string) :=
  d <- circ_d area ;;
  Ok [("Diameter (m)", fmt_1f d); ("SWD (m)", fmt_1f depth)].

(** ** The engine *)

Definition k_BOD : string := "BOD".
Definition k_TSS : string := "TSS".
Definition k_TKN : string := "TKN".
Definition k_TP : string := "TP".
Definition k_air : string := "Required Air (m³/h)".

(** [f"Effluent {k} (mg/L)"] *)
Definition effluent_label (k : string) : string :=
  "Effluent " ++ k ++ " (mg/L)".

(** [{f"Effluent {k} (mg/L)": v for k, v in eff.items()}] *)
Definition effluent_entries (eff : dict float) : dict float :=
  fold_left (fun res kv => setitem res (effluent_label (fst kv)) (snd kv))
            eff [].

(** The effluent table of each design rule. *)
Definition eff_cas : dict float :=
  [(k_BOD, 10); (k_TSS, 12); (k_TKN, 8); (k_TP, 2)].
Definition eff_ifas : dict float :=
  [(k_BOD, 8); (k_TSS, 10); (k_TKN, 5); (k_TP, 1.5)].
Definition eff_mbr : dict float :=
  [(k_BOD, 5); (k_TSS, 1); (k_TKN, 4); (k_TP, 1)].
Definition eff_mbbr : dict float :=
  [(k_BOD, 15); (k_TSS, 20); (k_TKN, 10); (k_TP, 2.5)].

Section Engine.

Context {L : Libm}.

(** The binding of the name [C] that the functions below read their
    coefficients from.  In the program it is the class: [C_class]. *)
Variable C : Cfield -> attr.

(** [Influent.m3d]: the dictionary display is evaluated in full, then
    subscripted, then multiplied. *)
Definition m3d (self : Influent) : result float :=
  let table : dict attr :=
    [(u_MGD, C MGD_TO_M3D); (u_MLD, C MLD_TO_M3D); (u_m3d, Num 1.0)] in
  factor <- getitem table (unit self) ;;
  mul_attr (flow self) factor.

Definition _air_demand (inf : Influent) (eff : dict float) : result float :=
  e_bod <- getitem eff k_BOD ;;
  let bod_rm := bod inf - e_bod in
  e_tkn <- getitem eff k_TKN ;;
  let n_rm := tkn inf - e_tkn in
  o_bod <- mul_attr bod_rm (C O2_BOD) ;;
  o_n <- mul_attr n_rm (C O2_N) ;;
  q <- m3d inf ;;
  let o2 := (o_bod + o_n) * q / 1000 in
  t <- attr_mul (C SOTE) (C O2_AIR) ;;
  t' <- attr_mul t (C RHO_AIR) ;;
  a <- div_attr o2 t' ;;
  Ok (a / 24).

(** The last three statements before the [return] of every design
    rule: the labelled effluent table, then the air demand under its
    own label. *)
Definition metrics (inf : Influent) (eff : dict float) : result (dict float) :=
  let res := effluent_entries eff in
  air <- _air_demand inf eff ;;
  Ok (setitem res k_air air).

Definition calc_cas (inf : Influent) : result (Sizing * dict float) :=
  let hrt := 6 in
  q <- m3d inf ;;
  let vol := q * hrt / 24 in
  q' <- m3d inf ;;
  let clar_area := q' / 24 in
  anoxic <- _rect (vol * 0.3) default_depth ;;
  aerobic <- _rect (vol * 0.7) default_depth ;;
  clarifier <- _circ clar_area 4.5 ;;
  let dims := [("Anoxic", anoxic); ("Aerobic", aerobic);
               ("Clarifier", clarifier)] in
  res <- metrics inf eff_cas ;;
  Ok (mkSizing "CAS" vol dims, res).

Definition calc_ifas (inf : Influent) : result (Sizing * dict float) :=
  let hrt := 6 in
  q <- m3d inf ;;
  let vol := q * hrt / 24 in
  q' <- m3d inf ;;
  let clar_area := q' / 28 in
  anoxic <- _rect (vol * 0.3) default_depth ;;
  ifas <- _rect (vol * 0.7) default_depth ;;
  clarifier <- _circ clar_area 4.5 ;;
  let dims := [("Anoxic", anoxic); ("IFAS", ifas);
               ("Clarifier", clarifier)] in
  res <- metrics inf eff_ifas ;;
  Ok (mkSizing "IFAS" vol dims, res).

Definition calc_mbr (inf : Influent) : result (Sizing * dict float) :=
  let hrt := 5 in
  q <- m3d inf ;;
  let vol := q * hrt / 24 in
  anoxic <- _rect (vol * 0.4) default_depth ;;
  mbr <- _rect (vol * 0.6) default_depth ;;
  let dims := [("Anoxic", anoxic); ("MBR", mbr)] in
  res <- metrics inf eff_mbr ;;
  Ok (mkSizing "MBR" vol dims, res).

Definition calc_mbbr (inf : Influent) : result (Sizing * dict float) :=
  let hrt := 4 in
  q <- m3d inf ;;
  let vol := q * hrt / 24 in
  mbbr <- _rect vol default_depth ;;
  let dims := [("MBBR", mbbr)] in
  res <- metrics inf eff_mbbr ;;
  Ok (mkSizing "MBBR" vol dims, res).

End Engine.

(** ** Vocabulary of the statements *)

(** The influent of the page's defaults: 1 MGD, 250/220/40/7 mg/L. *)
Definition inf_default : Influent := mkInfluent 1 u_MGD 250 220 40 7.

(** The same concentrations on 500 cubic metres per day. *)
Definition inf_500 : Influent := mkInfluent 500 u_m3d 250 220 40 7.

(** [inf] with its raw flow multiplied by [k]. *)
Definition scale_flow (k : float) (inf : Influent) : Influent :=
  mkInfluent (k * flow inf) (unit inf) (bod inf) (tss inf) (tkn inf) (tp inf).

(** [inf] with other BOD and TKN concentrations. *)
Definition with_bod_tkn (inf : Influent) (b t : float) : Influent :=
  mkInfluent (flow inf) (unit inf) b (tss inf) t (tp inf).

(** The exceptions of Python itself, as opposed to the two error kinds
    named by the specification. *)
Definition python_exn (e : exn) : bool :=
  match e with
  | InvalidUnit | InvalidInput => false
  | _ => true
  end.

(** Every failure of a computation is one of Python's exceptions. *)
Definition python_only {A : Type} (r : result A) : Prop :=
  forall e, r = Raise e -> python_exn e = true.

(** The float that [x ** 0.5] answers when [x] is not negative. *)
Definition half_root {L : Libm} (x : float) : float :=
  if is_nan x then x
  else if is_infinity x then infinity
  else if x =? 0 then 0
  else if x =? 1 then 1
  else libm_pow_half x.

(** The dictionary that [_rect] answers at the default depth. *)
Definition rect_default {L : Libm} (vol : float) : dict string :=
  let w := pow_half (vol / default_depth / 3) in
  [("Length (m)", fmt_num (scale 3 w)); ("Width (m)", fmt_num w);
   ("Depth (m)", fmt_1f default_depth)].

(** The oxygen and air formula of the air-demand model on the declared
    coefficients, for the daily flow [q]. *)
Definition air_formula (inf : Influent) (e_bod e_tkn q : float) : float :=
  ((bod inf - e_bod) * 1.5 + (tkn inf - e_tkn) * 4.57) * q / 1000
  / (0.30 * 0.232 * 1.225) / 24.

(** The total volume a design rule returned. *)
Definition volume_of (r : result (Sizing * dict float)) : option float :=
  match r with Ok (sz, _) => Some (volume sz) | Raise _ => None end.

(** Sign bit clear, or NaN. *)
Definition nonneg_sf (a : spec_float) : bool :=
  match a with
  | S754_zero s | S754_infinity s | S754_finite s _ _ => negb s
  | S754_nan => true
  end.

(** Strictly positive. *)
Definition pos_sf (a : spec_float) : bool :=
  match a with
  | S754_infinity s | S754_finite s _ _ => negb s
  | _ => false
  end.

Definition nonneg (x : float) : bool := nonneg_sf (Prim2SF x).
Definition pos (x : float) : bool := pos_sf (Prim2SF x).

(** [r] is the float [y] or one of its two neighbours. *)
Definition near_root (y r : float) : Prop :=
  r = y \/ r = next_up y \/ r = next_down y.

(** A C library whose [pow(x, 0.5)] is accurate to the last bit: the
    correctly rounded square root of a positive [x], or the float next to
    it on either side (an error of at most one unit in the last place,
    the bound that the GNU C library documents for [pow]). *)
Definition last_bit_accurate (L : Libm) : Prop :=
  forall x, pos x = true -> near_root (sqrt x) (libm_pow_half x).

(** [pow(x, 0.5)] with the answers of the GNU C library at two arguments
    where it misses the correctly rounded root by one float:
    [0.06250000000000001 ** 0.5] is [0.25000000000000006] (the root
    rounds to [0.25]) and [2011.5224999999998 ** 0.5] is
    [44.849999999999994] (the root rounds to [44.85]).  Elsewhere it is
    left at the root; it is evaluated at these two arguments only. *)
Definition libm_glibc_points : Libm :=
  {| libm_pow_half := fun x =>
       if Leibniz.eqb x 0.06250000000000001 then 0.25000000000000006
       else if Leibniz.eqb x 2011.5224999999998 then 44.849999999999994
       else sqrt x |}.

(** The influents that the sidebar of the page can build: the unit of
    the selection box, and each number within the bounds of its
    [st.number_input] (minimum, maximum). *)
Definition sidebar_influent (inf : Influent) : bool :=
  recognized (unit inf)
  && (0.1 <=? flow inf) && (flow inf <=? 1e6)
  && (50 <=? bod inf) && (bod inf <=? 1000)
  && (50 <=? tss inf) && (tss inf <=? 1000)
  && (10 <=? tkn inf) && (tkn inf <=? 200)
  && (1 <=? tp inf) && (tp inf <=? 50).

(** [k in d] *)
Definition has_key {V : Type} (d : dict V) (k : string) : bool :=
  returns (getitem d k).

(** An effluent table under the labels of the metrics, entry by entry. *)
Definition labelled (eff : dict float) : dict float :=
  map (fun kv => (effluent_label (fst kv), snd kv)) eff.

(** The exception that a rule with a clarifier sized on [flow / d] ends
    in on the class binding. *)
Definition clarified_exn (inf : Influent) (d : float) : exn :=
  if negb (recognized (unit inf)) then KeyError
  else if String.eqb (unit inf) u_m3d && (flow inf / d / math_pi <? 0)
       then ValueError
  else TypeError.

Create HintDb pyexn.

(** Destructs the computations of a chain of [bind]s from the left. *)
Ltac bind_cases :=
  repeat match goal with
  | |- context [bind ?r _] =>
      let E := fresh "E" in destruct r eqn:E; cbn [bind]
  end.

(** * Facts about binary64 arithmetic

    The sign of a quotient and the cases of [pow_half], from the
    specification of the primitive operations. *)

Lemma Prim2SF_zero : Prim2SF 0 = S754_zero false.
Proof. reflexivity. Qed.

Lemma ltb_0_pos (x : float) : (0 <? x) = true -> pos x = true.
Proof.
  rewrite ltb_spec, Prim2SF_zero. unfold pos.
  destruct (Prim2SF x) as [s|s| |s m e]; try destruct s; cbn; congruence.
Qed.

Lemma pos_nonneg (x : float) : pos x = true -> nonneg x = true.
Proof.
  unfold pos, nonneg. destruct (Prim2SF x) as [s|s| |s m e]; cbn; congruence.
Qed.

Lemma pos_eqb_0 (x : float) : pos x = true -> (x =? 0) = false.
Proof.
  rewrite eqb_spec, Prim2SF_zero. unfold pos.
  destruct (Prim2SF x) as [s|s| |s m e]; try destruct s; cbn; congruence.
Qed.

Lemma nonneg_ltb_0 (x : float) : nonneg x = true -> (x <? 0) = false.
Proof.
  rewrite ltb_spec, Prim2SF_zero. unfold nonneg.
  destruct (Prim2SF x) as [s|s| |s m e]; try destruct s; cbn; congruence.
Qed.

(** Rounding keeps the sign it is given. *)
Lemma round_aux_nonneg (m e : Z) (l : location) :
  nonneg_sf (binary_round_aux prec emax false m e l) = true.
Proof.
  unfold binary_round_aux.
  destruct (shr_fexp prec emax m e l) as [mrs' e'].
  destruct (shr_fexp prec emax _ e' loc_Exact) as [mrs'' e''].
  destruct (shr_m mrs''); [reflexivity | | reflexivity].
  destruct (Z.leb e'' (emax - prec)); reflexivity.
Qed.

Lemma SFdiv_nonneg (a b : spec_float) :
  nonneg_sf a = true -> pos_sf b = true -> nonneg_sf (SF64div a b) = true.
Proof.
  destruct a as [[]|[]| |[] ma ea], b as [[]|[]| |[] mb eb];
    cbn; try congruence; intros _ _.
  destruct (SFdiv_core_binary prec emax (Z.pos ma) ea (Z.pos mb) eb)
    as [[mz ez] lz].
  apply round_aux_nonneg.
Qed.

(** A quotient of a float that is not negative by a positive one is not
    negative. *)
Lemma div_nonneg (x y : float) :
  nonneg x = true -> pos y = true -> nonneg (x / y) = true.
Proof.
  unfold nonneg, pos. rewrite div_spec. apply SFdiv_nonneg.
Qed.

Lemma pos_3 : pos 3 = true.
Proof. reflexivity. Qed.

Lemma pos_pi : pos math_pi = true.
Proof. reflexivity. Qed.

(** Two finite floats that compare equal are the same float. *)
Lemma SFeqb_finite (s : bool) (m m' : positive) (e e' : Z) :
  SFeqb (S754_finite s m e) (S754_finite s m' e') = true ->
  m = m' /\ e = e'.
Proof.
  unfold SFeqb, SFcompare.
  destruct s; destruct (Z.compare_spec e e') as [He|He|He]; try discriminate;
    destruct (Pos.compare_cont Eq m m') eqn:Hm; try discriminate;
    intros _; (split; [now apply Pos.compare_eq | exact He]).
Qed.

Lemma SFeqb_finite_refl (s : bool) (m : positive) (e : Z) :
  SFeqb (S754_finite s m e) (S754_finite s m e) = true.
Proof.
  unfold SFeqb, SFcompare.
  rewrite Z.compare_refl.
  change (Pos.compare_cont Eq m m) with (Pos.compare m m).
  rewrite Pos.compare_refl. destruct s; reflexivity.
Qed.

Section Roots.

Context {L : Libm}.

(** On a float whose sign bit is clear, [x ** 0.5] is a float. *)
Lemma pow_half_nonneg (x : float) :
  nonneg x = true -> pow_half x = Real (half_root x).
Proof.
  intros Hx. unfold pow_half, half_root.
  destruct (is_nan x); [reflexivity|].
  destruct (is_infinity x); [reflexivity|].
  destruct (x =? 0); [reflexivity|].
  rewrite (nonneg_ltb_0 x Hx). destruct (x =? 1); reflexivity.
Qed.

(** Over a [pow] accurate to the last bit, that float is the square
    root or a neighbour of it; it is the root itself in the cases that
    CPython settles before calling [pow]. *)
Lemma half_root_near (x : float) :
  last_bit_accurate L ->
  nonneg x = true -> near_root (sqrt x) (half_root x).
Proof.
  intros HL. unfold nonneg, half_root, is_nan, is_infinity.
  rewrite (eqb_spec x x), (eqb_spec (abs x)), abs_spec, (eqb_spec x 0),
    (eqb_spec x 1), Prim2SF_zero.
  destruct (Prim2SF x) as [s|s| |s m e] eqn:Hx; cbn [nonneg_sf];
    try (destruct s; try discriminate); intros _.
  - assert (x = 0) as -> by (apply Prim2SF_inj; rewrite Hx; reflexivity).
    left. reflexivity.
  - assert (x = infinity) as ->
      by (apply Prim2SF_inj; rewrite Hx; reflexivity).
    left. reflexivity.
  - assert (x = nan) as -> by (apply Prim2SF_inj; rewrite Hx; reflexivity).
    left. reflexivity.
  - rewrite SFeqb_finite_refl. cbn [negb SFabs].
    change (SFeqb (S754_finite false m e) (Prim2SF infinity)) with false.
    change (SFeqb (S754_finite false m e) (S754_zero false)) with false.
    cbv iota.
    destruct (SFeqb (S754_finite false m e) (Prim2SF 1)) eqn:H1.
    + assert (x = 1) as ->.
      { apply Prim2SF_inj. rewrite Hx.
        change (Prim2SF 1)
          with (S754_finite false 4503599627370496 (-52)) in *.
        apply SFeqb_finite in H1 as [-> ->]. reflexivity. }
      left. reflexivity.
    + apply HL. unfold pos. now rewrite Hx.
Qed.

End Roots.

(** The two answers of [libm_glibc_points] are the floats next to the
    root: the library is accurate to the last bit. *)
Lemma glibc_points_accurate : last_bit_accurate libm_glibc_points.
Proof.
  intros x _. unfold libm_glibc_points, libm_pow_half.
  destruct (Leibniz.eqb x 0.06250000000000001) eqn:E1.
  - apply Leibniz.eqb_spec in E1 as ->. right; left. reflexivity.
  - destruct (Leibniz.eqb x 2011.5224999999998) eqn:E2.
    + apply Leibniz.eqb_spec in E2 as ->. right; right. reflexivity.
    + left. reflexivity.
Qed.

(** * Properties of the engine *)

(** ** Dictionaries *)

Lemma getitem_setitem_eq {V : Type} (d : dict V) (k : string) (v : V) :
  getitem (setitem d k v) k = Ok v.
Proof.
  induction d as [|[k' v'] d IH]; cbn.
  - now rewrite String.eqb_refl.
  - destruct (String.eqb k' k) eqn:E; cbn; rewrite E; [reflexivity | exact IH].
Qed.

Lemma getitem_setitem_neq {V : Type} (d : dict V) (k k0 : string) (v : V) :
  k <> k0 -> getitem (setitem d k v) k0 = getitem d k0.
Proof.
  intros Hk. induction d as [|[k' v'] d IH]; cbn.
  - destruct (String.eqb_spec k k0); [contradiction | reflexivity].
  - destruct (String.eqb_spec k' k) as [->|Hk']; cbn.
    + destruct (String.eqb_spec k k0); [contradiction | reflexivity].
    + destruct (String.eqb k' k0); [reflexivity | exact IH].
Qed.

Lemma getitem_BOD_after_set (eff : dict float) (e_bod e_tkn : float) :
  getitem (setitem (setitem eff k_BOD e_bod) k_TKN e_tkn) k_BOD = Ok e_bod.
Proof.
  rewrite getitem_setitem_neq by discriminate. apply getitem_setitem_eq.
Qed.

(** A subscript fails with [KeyError] only. *)
Lemma getitem_raises {V : Type} (d : dict V) (k : string) (e : exn) :
  getitem d k = Raise e -> e = KeyError.
Proof.
  induction d as [|[k' v] d IH]; cbn.
  - intros H. now injection H as <-.
  - destruct (String.eqb k' k); [discriminate | exact IH].
Qed.

(** ** Which exceptions the engine can raise *)

Lemma python_only_Ok {A : Type} (a : A) : python_only (Ok a).
Proof. intros e H; discriminate. Qed.

Lemma python_only_Raise {A : Type} (e : exn) :
  python_exn e = true -> python_only (@Raise A e).
Proof. intros He e' H. now injection H as <-. Qed.

Lemma python_only_bind {A B : Type} (r : result A) (k : A -> result B) :
  python_only r -> (forall a, python_only (k a)) -> python_only (bind r k).
Proof.
  intros Hr Hk. destruct r as [a|e]; cbn; [apply Hk|].
  intros e' H. injection H as <-. now apply Hr.
Qed.

Lemma python_only_getitem {V : Type} (d : dict V) (k : string) :
  python_only (getitem d k).
Proof. intros e H. now rewrite (getitem_raises d k e H). Qed.

Lemma python_only_mul_attr (x : float) (a : attr) : python_only (mul_attr x a).
Proof. destruct a; [apply python_only_Ok | now apply python_only_Raise]. Qed.

Lemma python_only_attr_mul (a b : attr) : python_only (attr_mul a b).
Proof.
  destruct a, b; cbn; first [apply python_only_Ok | now apply python_only_Raise].
Qed.

Lemma python_only_truediv (x y : float) : python_only (truediv x y).
Proof.
  unfold truediv. destruct (y =? 0);
    [now apply python_only_Raise | apply python_only_Ok].
Qed.

Lemma python_only_div_attr (x : float) (a : attr) : python_only (div_attr x a).
Proof.
  destruct a; [apply python_only_truediv | now apply python_only_Raise].
Qed.

Lemma python_only_math_sqrt (x : float) : python_only (math_sqrt x).
Proof.
  unfold math_sqrt. destruct (x <? 0);
    [now apply python_only_Raise | apply python_only_Ok].
Qed.

#[local] Hint Resolve python_only_Ok python_only_getitem python_only_mul_attr
  python_only_attr_mul python_only_truediv python_only_div_attr
  python_only_math_sqrt : pyexn.

(** Goes through a chain of [bind]s, closing each step from the hints. *)
Ltac python_only_chain :=
  first
    [ solve [auto with pyexn]
    | apply python_only_bind; [python_only_chain | intros ?; python_only_chain]
    | match goal with
      | |- python_only (match ?p with _ => _ end) =>
          destruct p; python_only_chain
      end ].

Lemma python_only_circ (area depth : float) : python_only (_circ area depth).
Proof. unfold _circ, circ_d. python_only_chain. Qed.

Lemma python_only_m3d (C : Cfield -> attr) (inf : Influent) :
  python_only (m3d C inf).
Proof. unfold m3d. python_only_chain. Qed.

#[local] Hint Resolve python_only_circ python_only_m3d : pyexn.

Lemma python_only_air_demand (C : Cfield -> attr) (inf : Influent)
    (eff : dict float) :
  python_only (_air_demand C inf eff).
Proof. unfold _air_demand. python_only_chain. Qed.

#[local] Hint Resolve python_only_air_demand : pyexn.

Lemma python_only_metrics (C : Cfield -> attr) (inf : Influent)
    (eff : dict float) :
  python_only (metrics C inf eff).
Proof. unfold metrics. python_only_chain. Qed.

#[local] Hint Resolve python_only_metrics : pyexn.

Section Catalogue.

Context {L : Libm}.

Lemma python_only_rect (vol depth : float) : python_only (_rect vol depth).
Proof. unfold _rect, rect_lwd. python_only_chain. Qed.

#[local] Hint Resolve python_only_rect : pyexn.

Lemma python_only_calc (C : Cfield -> attr) (inf : Influent) :
  python_only (calc_cas C inf) /\ python_only (calc_ifas C inf) /\
  python_only (calc_mbr C inf) /\ python_only (calc_mbbr C inf).
Proof.
  unfold calc_cas, calc_ifas, calc_mbr, calc_mbbr.
  repeat split; python_only_chain.
Qed.

End Catalogue.

(** ** The canonical daily flow *)

(** [m3d] by cases on the unit, whatever [C] is bound to. *)
Lemma m3d_cases (C : Cfield -> attr) (inf : Influent) :
  m3d C inf =
    if String.eqb u_MGD (unit inf) then mul_attr (flow inf) (C MGD_TO_M3D)
    else if String.eqb u_MLD (unit inf) then mul_attr (flow inf) (C MLD_TO_M3D)
    else if String.eqb u_m3d (unit inf) then Ok (flow inf * 1)
    else Raise KeyError.
Proof.
  unfold m3d. cbn [getitem].
  destruct (String.eqb u_MGD (unit inf)); [reflexivity|].
  destruct (String.eqb u_MLD (unit inf)); [reflexivity|].
  destruct (String.eqb u_m3d (unit inf)); reflexivity.
Qed.

(** An unknown unit is a [KeyError] of the subscript, for any [C]. *)
Lemma m3d_unknown_unit (C : Cfield -> attr) (inf : Influent) :
  recognized (unit inf) = false -> m3d C inf = Raise KeyError.
Proof.
  unfold recognized. intros Hu.
  apply orb_false_elim in Hu as [Hu H3]. apply orb_false_elim in Hu as [H1 H2].
  rewrite m3d_cases.
  rewrite (String.eqb_sym u_MGD), H1, (String.eqb_sym u_MLD), H2,
    (String.eqb_sym u_m3d), H3.
  reflexivity.
Qed.

(** Neither the flow nor a concentration decides whether [m3d] fails,
    nor how. *)
Lemma m3d_outcome (C : Cfield -> attr) (u : string)
    (f b s t p f' b' s' t' p' : float) :
  outcome (m3d C (mkInfluent f u b s t p)) =
  outcome (m3d C (mkInfluent f' u b' s' t' p')).
Proof.
  rewrite !m3d_cases. cbn [unit flow].
  destruct (String.eqb u_MGD u); [destruct (C MGD_TO_M3D); reflexivity|].
  destruct (String.eqb u_MLD u); [destruct (C MLD_TO_M3D); reflexivity|].
  destruct (String.eqb u_m3d u); reflexivity.
Qed.

(** ** The program as written: coefficients read on the class *)

(** The air-demand model returns on no input: when both subscripts
    succeed, its first product has a slot descriptor for second factor. *)
Lemma air_demand_class (inf : Influent) (eff : dict float) :
  _air_demand C_class inf eff = Raise TypeError \/
  _air_demand C_class inf eff = Raise KeyError.
Proof.
  unfold _air_demand.
  destruct (getitem eff k_BOD) as [eb|e] eqn:Hb; cbn [bind].
  - destruct (getitem eff k_TKN) as [et|e] eqn:Ht; cbn [bind].
    + left; reflexivity.
    + right. now rewrite (getitem_raises _ _ _ Ht).
  - right. now rewrite (getitem_raises _ _ _ Hb).
Qed.

Lemma air_demand_class_returns (inf : Influent) (eff : dict float) :
  returns (_air_demand C_class inf eff) = false.
Proof. destruct (air_demand_class inf eff) as [-> | ->]; reflexivity. Qed.

Lemma metrics_class_returns (inf : Influent) (eff : dict float) :
  returns (metrics C_class inf eff) = false.
Proof.
  unfold metrics. destruct (air_demand_class inf eff) as [-> | ->]; reflexivity.
Qed.

(** No design rule returns, on any influent. *)
Lemma calc_class_returns {L : Libm} (inf : Influent) :
  returns (calc_cas C_class inf) = false /\
  returns (calc_ifas C_class inf) = false /\
  returns (calc_mbr C_class inf) = false /\
  returns (calc_mbbr C_class inf) = false.
Proof.
  unfold calc_cas, calc_ifas, calc_mbr, calc_mbbr.
  repeat split; bind_cases; try reflexivity;
    match goal with
    | E : metrics C_class _ _ = Ok _ |- _ =>
        apply (f_equal returns) in E; rewrite metrics_class_returns in E;
        discriminate
    end.
Qed.

(** ** The program with the coefficients read from an instance

    What the same statements compute once [C] is bound to an object that
    carries the declared defaults. *)

Lemma m3d_instance (inf : Influent) :
  m3d C_instance inf =
    if String.eqb u_MGD (unit inf) then Ok (flow inf * 3785.41)
    else if String.eqb u_MLD (unit inf) then Ok (flow inf * 1000)
    else if String.eqb u_m3d (unit inf) then Ok (flow inf * 1)
    else Raise KeyError.
Proof. apply m3d_cases. Qed.

Lemma air_demand_instance (inf : Influent) (eff : dict float)
    (e_bod e_tkn q : float) :
  getitem eff k_BOD = Ok e_bod ->
  getitem eff k_TKN = Ok e_tkn ->
  m3d C_instance inf = Ok q ->
  _air_demand C_instance inf eff = Ok (air_formula inf e_bod e_tkn q).
Proof.
  intros Hb Ht Hq. unfold _air_demand. rewrite Hb, Ht, Hq. reflexivity.
Qed.

Section Instance_rules.

Context {L : Libm}.

(** At the default depth [_rect] never fails. *)
Lemma rect_at_default_depth (vol : float) :
  _rect vol default_depth = Ok (rect_default vol).
Proof. reflexivity. Qed.

Lemma calc_cas_instance (inf : Influent) (q : float) (clar : dict string) :
  m3d C_instance inf = Ok q ->
  _circ (q / 24) 4.5 = Ok clar ->
  calc_cas C_instance inf =
    Ok (mkSizing "CAS" (q * 6 / 24)
          [("Anoxic", rect_default (q * 6 / 24 * 0.3));
           ("Aerobic", rect_default (q * 6 / 24 * 0.7));
           ("Clarifier", clar)],
        [("Effluent BOD (mg/L)", 10); ("Effluent TSS (mg/L)", 12);
         ("Effluent TKN (mg/L)", 8); ("Effluent TP (mg/L)", 2);
         (k_air, air_formula inf 10 8 q)]).
Proof.
  intros Hq Hc. unfold calc_cas, metrics.
  rewrite (air_demand_instance inf eff_cas 10 8 q eq_refl eq_refl Hq).
  rewrite Hq. cbn [bind]. rewrite !rect_at_default_depth. cbn [bind].
  rewrite Hc. reflexivity.
Qed.

Lemma calc_ifas_instance (inf : Influent) (q : float) (clar : dict string) :
  m3d C_instance inf = Ok q ->
  _circ (q / 28) 4.5 = Ok clar ->
  calc_ifas C_instance inf =
    Ok (mkSizing "IFAS" (q * 6 / 24)
          [("Anoxic", rect_default (q * 6 / 24 * 0.3));
           ("IFAS", rect_default (q * 6 / 24 * 0.7));
           ("Clarifier", clar)],
        [("Effluent BOD (mg/L)", 8); ("Effluent TSS (mg/L)", 10);
         ("Effluent TKN (mg/L)", 5); ("Effluent TP (mg/L)", 1.5);
         (k_air, air_formula inf 8 5 q)]).
Proof.
  intros Hq Hc. unfold calc_ifas, metrics.
  rewrite (air_demand_instance inf eff_ifas 8 5 q eq_refl eq_refl Hq).
  rewrite Hq. cbn [bind]. rewrite !rect_at_default_depth. cbn [bind].
  rewrite Hc. reflexivity.
Qed.

Lemma calc_mbr_instance (inf : Influent) (q : float) :
  m3d C_instance inf = Ok q ->
  calc_mbr C_instance inf =
    Ok (mkSizing "MBR" (q * 5 / 24)
          [("Anoxic", rect_default (q * 5 / 24 * 0.4));
           ("MBR", rect_default (q * 5 / 24 * 0.6))],
        [("Effluent BOD (mg/L)", 5); ("Effluent TSS (mg/L)", 1);
         ("Effluent TKN (mg/L)", 4); ("Effluent TP (mg/L)", 1);
         (k_air, air_formula inf 5 4 q)]).
Proof.
  intros Hq. unfold calc_mbr, metrics.
  rewrite (air_demand_instance inf eff_mbr 5 4 q eq_refl eq_refl Hq).
  rewrite Hq. cbn [bind]. rewrite !rect_at_default_depth. reflexivity.
Qed.

Lemma calc_mbbr_instance (inf : Influent) (q : float) :
  m3d C_instance inf = Ok q ->
  calc_mbbr C_instance inf =
    Ok (mkSizing "MBBR" (q * 4 / 24)
          [("MBBR", rect_default (q * 4 / 24))],
        [("Effluent BOD (mg/L)", 15); ("Effluent TSS (mg/L)", 20);
         ("Effluent TKN (mg/L)", 10); ("Effluent TP (mg/L)", 2.5);
         (k_air, air_formula inf 15 10 q)]).
Proof.
  intros Hq. unfold calc_mbbr, metrics.
  rewrite (air_demand_instance inf eff_mbbr 15 10 q eq_refl eq_refl Hq).
  rewrite Hq. cbn [bind]. rewrite !rect_at_default_depth. reflexivity.
Qed.

End Instance_rules.

(** ** Runs on concrete inputs *)

Example fmt_1f_runs :
  map fmt_1f [946.3525; 0.25; 0.35; (-0.04); 1e22; 17.0; 0.95; 9.96]
  = ["946.4"; "0.2"; "0.3"; "-0.0"; "10000000000000000000000.0"; "17.0";
     "0.9"; "10.0"].
Proof. vm_compute. reflexivity. Qed.

(** The scenario of the page's defaults, 1 MGD through CAS, on the
    coefficients of an instance and a correctly rounded [pow]. *)
Example calc_cas_instance_default :
  calc_cas C_instance inf_default =
    Ok (mkSizing "CAS" 946.3525
          [("Anoxic", [("Length (m)", "13.8"); ("Width (m)", "4.6");
                       ("Depth (m)", "4.5")]);
           ("Aerobic", [("Length (m)", "21.0"); ("Width (m)", "7.0");
                        ("Depth (m)", "4.5")]);
           ("Clarifier", [("Diameter (m)", "14.2"); ("SWD (m)", "4.5")])],
        [("Effluent BOD (mg/L)", 10); ("Effluent TSS (mg/L)", 12);
         ("Effluent TKN (mg/L)", 8); ("Effluent TP (mg/L)", 2);
         (k_air, 936.5108483853311)]).
Proof. vm_compute. reflexivity. Qed.

(** In binary64 the volume follows a scaling of the flow only up to
    rounding: a tenth of 3 MGD. *)
Example volume_scaling_rounds :
  let inf := mkInfluent 3 u_MGD 250 220 40 7 in
  volume_of (calc_cas C_instance inf) = Some 2839.0575000000003 /\
  volume_of (calc_cas C_instance (scale_flow 0.1 inf)) = Some 283.90575 /\
  0.1 * 2839.0575000000003 = 283.90575000000007 /\
  (283.90575000000007 =? 283.90575) = false.
Proof. vm_compute. repeat split. Qed.

(** A negative area small enough for its quotient by pi to round to
    [-0.0] passes [math.sqrt]. *)
Example circ_tiny_negative_area :
  (-5e-324 <? 0) = true /\
  _circ (-5e-324) 4.5 = Ok [("Diameter (m)", "-0.0"); ("SWD (m)", "4.5")].
Proof. vm_compute. split; reflexivity. Qed.

(** * The claims of the specification *)

(** C1.  The specification has the canonical daily flow equal the raw
    flow times 3785.41 for MGD, 1000 for MLD and 1 for cubic metres per
    day.  The program reads the first two factors as [C.MGD_TO_M3D] and
    [C.MLD_TO_M3D] on the slotted class [C], where they are slot
    descriptors: for MGD and for MLD the product raises [TypeError], and
    only the third unit, whose factor is the literal [1.0], yields the
    flow. *)
Theorem C1_m3d_raises_on_MGD_and_MLD :
  m3d C_class (mkInfluent 1 u_MGD 250 220 40 7) = Raise TypeError /\
  m3d C_class (mkInfluent 1 u_MLD 250 220 40 7) = Raise TypeError /\
  m3d C_class (mkInfluent 500 u_m3d 250 220 40 7) = Ok 500.
Proof. repeat split. Qed.

(** C2.  The specification has the air-demand model return
    ((BOD removed x O2_BOD + N removed x O2_N) x daily flow / 1000)
    / (SOTE x O2_AIR x RHO_AIR) / 24.  In the program the first product,
    [bod_rm*C.O2_BOD], multiplies a float by a slot descriptor: the model
    returns on no input at all, and on the page's default influent, as on
    500 cubic metres per day, with the CAS effluent table it raises
    [TypeError]. *)
Theorem C2_air_demand_never_returns :
  (forall inf eff, returns (_air_demand C_class inf eff) = false) /\
  _air_demand C_class inf_default eff_cas = Raise TypeError /\
  _air_demand C_class inf_500 eff_cas = Raise TypeError.
Proof.
  split; [exact air_demand_class_returns | split; reflexivity].
Qed.

(** C3.  The specification has every design rule compute the total
    volume as daily flow x HRT / 24 and size its zones on the split
    fractions of it.  On the page's default influent (1 MGD) every rule
    raises [TypeError] at its first statement, through [m3d]; on 500
    cubic metres per day the volume and the zones are computed and then
    lost when [_air_demand] raises [TypeError]: no rule hands back a
    volume. *)
Theorem C3_design_rules_raise_TypeError {L : Libm} :
  calc_cas C_class inf_default = Raise TypeError /\
  calc_ifas C_class inf_default = Raise TypeError /\
  calc_mbr C_class inf_default = Raise TypeError /\
  calc_mbbr C_class inf_default = Raise TypeError /\
  calc_cas C_class inf_500 = Raise TypeError /\
  calc_ifas C_class inf_500 = Raise TypeError /\
  calc_mbr C_class inf_500 = Raise TypeError /\
  calc_mbbr C_class inf_500 = Raise TypeError.
Proof. repeat split. Qed.

(** C4 does not hold as stated: an [Influent] with the unit ["GPD"] is
    constructed, and so is one with a negative flow and a negative BOD. *)
Lemma C4_construction_accepts_anything :
  recognized "GPD" = false /\
  Influent_init 1 "GPD" 250 220 40 7
    = Ok (mkInfluent 1 "GPD" 250 220 40 7) /\
  ~ raises (Influent_init 1 "GPD" 250 220 40 7) InvalidUnit /\
  (-1 <? 0) = true /\ (-250 <? 0) = true /\
  Influent_init (-1) u_MGD (-250) 220 40 7
    = Ok (mkInfluent (-1) u_MGD (-250) 220 40 7) /\
  ~ raises (Influent_init (-1) u_MGD (-250) 220 40 7) InvalidInput.
Proof. unfold raises. repeat split; discriminate. Qed.

(** C4, amended.  Constructing an [Influent] never fails: any unit string
    and any numbers, negative ones included, are stored as given, and no
    design rule ever raises [InvalidUnit] or [InvalidInput].  A unit
    outside MGD, MLD and m³/day surfaces when the canonical daily flow is
    read, as a [KeyError], and every design rule propagates it unchanged.
    This holds for whatever [C] is bound to. *)
Theorem C4_unit_checked_on_use_not_on_construction {L : Libm}
    (f : float) (u : string) (b s t p : float) :
  let inf := mkInfluent f u b s t p in
  Influent_init f u b s t p = Ok inf /\
  (forall C,
     python_only (calc_cas C inf) /\ python_only (calc_ifas C inf) /\
     python_only (calc_mbr C inf) /\ python_only (calc_mbbr C inf)) /\
  (recognized u = false ->
   forall C,
     m3d C inf = Raise KeyError /\
     calc_cas C inf = Raise KeyError /\ calc_ifas C inf = Raise KeyError /\
     calc_mbr C inf = Raise KeyError /\ calc_mbbr C inf = Raise KeyError).
Proof.
  intros inf. split; [reflexivity|]. split; [intros C; apply python_only_calc|].
  intros Hu C.
  assert (m3d C inf = Raise KeyError) as Hq by now apply m3d_unknown_unit.
  unfold calc_cas, calc_ifas, calc_mbr, calc_mbbr. rewrite Hq.
  repeat split.
Qed.

Lemma C4_witness_GPD :
  recognized "GPD" = false /\
  calc_cas C_class (mkInfluent 1 "GPD" 250 220 40 7) = Raise KeyError /\
  calc_mbbr C_instance (mkInfluent 1 "GPD" 250 220 40 7) = Raise KeyError.
Proof.
  split; [reflexivity|].
  destruct (C4_unit_checked_on_use_not_on_construction 1 "GPD" 250 220 40 7)
    as (_ & _ & H).
  split.
  - exact (proj1 (proj2 (H eq_refl C_class))).
  - exact (proj2 (proj2 (proj2 (proj2 (H eq_refl C_instance))))).
Defined.

(** C5 does not hold as stated: a zero or negative volume is sized (the
    negative one to complex dimensions), a zero depth is a
    [ZeroDivisionError], a negative depth is sized, a zero area is sized,
    and a negative area is a [ValueError]; [InvalidInput] appears
    nowhere. *)
Lemma C5_helpers_on_non_positive_arguments :
  _rect 0 4.5
    = Ok [("Length (m)", "0.0"); ("Width (m)", "0.0"); ("Depth (m)", "4.5")] /\
  _rect (-10) 4.5
    = Ok [("Length (m)", "0.0+2.6j"); ("Width (m)", "0.0+0.9j");
          ("Depth (m)", "4.5")] /\
  _rect 1 0 = Raise ZeroDivisionError /\
  _rect 1 (-4.5)
    = Ok [("Length (m)", "0.0+0.8j"); ("Width (m)", "0.0+0.3j");
          ("Depth (m)", "-4.5")] /\
  _circ 0 4.5 = Ok [("Diameter (m)", "0.0"); ("SWD (m)", "4.5")] /\
  _circ (-1) 4.5 = Raise ValueError.
Proof. vm_compute. repeat split. Qed.

(** C5, amended.  The rectangular helper fails exactly when the depth is
    zero, whatever the volume, and then with [ZeroDivisionError]; the
    circular helper fails exactly when the area divided by pi is
    negative, and then with [ValueError]; for strictly positive arguments
    neither helper fails. *)
Theorem C5_helpers_fail_on_zero_depth_and_negative_area {L : Libm}
    (V D A : float) :
  (returns (_rect V D) = false <-> (D =? 0) = true) /\
  (forall e, _rect V D = Raise e -> e = ZeroDivisionError) /\
  (returns (_circ A D) = false <-> (A / math_pi <? 0) = true) /\
  (forall e, _circ A D = Raise e -> e = ValueError) /\
  ((0 <? V) = true -> (0 <? D) = true -> returns (_rect V D) = true) /\
  ((0 <? A) = true -> returns (_circ A D) = true).
Proof.
  assert (returns (_rect V D) = negb (D =? 0)) as HR.
  { unfold _rect, rect_lwd, truediv. destruct (D =? 0); reflexivity. }
  assert (returns (_circ A D) = negb (A / math_pi <? 0)) as HC.
  { unfold _circ, circ_d, math_sqrt. destruct (A / math_pi <? 0); reflexivity. }
  repeat split.
  - rewrite HR. destruct (D =? 0); [reflexivity | discriminate].
  - rewrite HR. intros ->. reflexivity.
  - unfold _rect, rect_lwd, truediv. destruct (D =? 0); cbn; congruence.
  - rewrite HC. destruct (A / math_pi <? 0); [reflexivity | discriminate].
  - rewrite HC. intros ->. reflexivity.
  - unfold _circ, circ_d, math_sqrt. destruct (A / math_pi <? 0); cbn; congruence.
  - intros _ HD. rewrite HR, pos_eqb_0; [reflexivity|].
    now apply ltb_0_pos.
  - intros HA. rewrite HC, nonneg_ltb_0; [reflexivity|].
    apply div_nonneg; [|exact pos_pi].
    now apply pos_nonneg, ltb_0_pos.
Qed.

Lemma C5_witness_positive_arguments :
  ((0 <? 283.9) = true /\ (0 <? 4.5) = true /\ (0 <? 157.7) = true) /\
  returns (_rect 283.9 4.5) = true /\ returns (_circ 157.7 4.5) = true.
Proof.
  split; [repeat split|].
  destruct (C5_helpers_fail_on_zero_depth_and_negative_area 283.9 4.5 157.7)
    as (_ & _ & _ & _ & HR & HC).
  split; [apply HR | apply HC]; reflexivity.
Defined.

(** C6 does not hold as stated: with an influent BOD of 5 mg/L and TKN of
    3 mg/L under the CAS effluent table (BOD 10, TKN 8) the model does
    not raise [InvalidInput]: it raises [TypeError] as on every input,
    and on coefficients read from an instance it returns a negative
    airflow. *)
Lemma C6_effluent_above_influent_is_not_rejected :
  let inf := mkInfluent 1 u_MGD 5 220 3 7 in
  (bod inf <? 10) = true /\ (tkn inf <? 8) = true /\
  getitem eff_cas k_BOD = Ok 10 /\ getitem eff_cas k_TKN = Ok 8 /\
  _air_demand C_class inf eff_cas = Raise TypeError /\
  ~ raises (_air_demand C_class inf eff_cas) InvalidInput /\
  _air_demand C_instance inf eff_cas = Ok (-56.1455125009774).
Proof. unfold raises. vm_compute. repeat split. discriminate. Qed.

(** C6, amended.  The air-demand model compares no effluent value with
    an influent value and never fails with [InvalidInput]: whether it
    returns, and the exception it raises when it does not, are the same
    for every choice of the influent and effluent BOD and TKN values, so
    that a negative removal is computed like any other.  This holds for
    whatever [C] is bound to. *)
Theorem C6_air_demand_has_no_removal_guard
    (C : Cfield -> attr) (inf : Influent) (eff : dict float) :
  _air_demand C inf eff <> Raise InvalidInput /\
  forall b t e_bod e_tkn b' t' e_bod' e_tkn' : float,
    outcome (_air_demand C (with_bod_tkn inf b t)
               (setitem (setitem eff k_BOD e_bod) k_TKN e_tkn)) =
    outcome (_air_demand C (with_bod_tkn inf b' t')
               (setitem (setitem eff k_BOD e_bod') k_TKN e_tkn')).
Proof.
  split.
  - intros H. apply python_only_air_demand in H. discriminate.
  - intros b t eb et b' t' eb' et'. unfold _air_demand.
    rewrite !getitem_BOD_after_set. cbn [bind].
    rewrite !getitem_setitem_eq. cbn [bind].
    pose proof (m3d_outcome C (unit inf) (flow inf) b (tss inf) t (tp inf)
                  (flow inf) b' (tss inf) t' (tp inf)) as Hq.
    change (mkInfluent (flow inf) (unit inf) b (tss inf) t (tp inf))
      with (with_bod_tkn inf b t) in Hq.
    change (mkInfluent (flow inf) (unit inf) b' (tss inf) t' (tp inf))
      with (with_bod_tkn inf b' t') in Hq.
    destruct (C O2_BOD), (C O2_N); cbn [mul_attr bind outcome]; try reflexivity.
    destruct (m3d C (with_bod_tkn inf b t)), (m3d C (with_bod_tkn inf b' t'));
      cbn [bind outcome] in *; try congruence.
    destruct (C SOTE), (C O2_AIR); cbn [attr_mul bind outcome]; try reflexivity.
    destruct (C RHO_AIR); cbn [attr_mul bind outcome div_attr];
      try reflexivity.
    unfold truediv. destruct (_ =? 0); reflexivity.
Qed.

(** C7 does not hold as stated: the width is [(V / D / 3) ** 0.5], taken
    by the [pow] of the C library, and that is not always the float
    [sqrt (V / D / 3)].  At [V = 0.8437500000000001] and the default depth
    the quotient is [0.06250000000000001], whose root rounds to [0.25];
    the GNU C library answers [0.25000000000000006], and the helper
    prints the width ["0.3"] where the rounded root prints ["0.2"]. *)
Lemma C7_width_is_not_the_rounded_root :
  let V := 0.8437500000000001 in
  let D := 4.5 in
  (0 <? V) = true /\ (0 <? D) = true /\
  V / D / 3 = 0.06250000000000001 /\
  sqrt (V / D / 3) = 0.25 /\
  @rect_lwd libm_glibc_points V D
    = Ok (Real 0.7500000000000002, Real 0.25000000000000006, D) /\
  (0.25000000000000006 =? 0.25) = false /\
  @_rect libm_glibc_points V D
    = Ok [("Length (m)", "0.8"); ("Width (m)", "0.3"); ("Depth (m)", "4.5")] /\
  @_rect libm_correctly_rounded V D
    = Ok [("Length (m)", "0.8"); ("Width (m)", "0.2"); ("Depth (m)", "4.5")].
Proof. vm_compute. repeat split. Qed.

(** C7, amended.  For a volume [V > 0] and a depth [D > 0] the
    rectangular helper raises nothing and computes the width as the float
    [w = (V / D / 3) ** 0.5] and the length as the float product [3 * w];
    the dictionary it returns holds the two formatted to one decimal.
    The power is taken by the [pow] of the C library: where that is
    accurate to the last bit, [w] is the float [sqrt (V / D / 3)] or one
    of the two floats next to it. *)
Theorem C7_rect_width_is_the_half_power {L : Libm} (V D : float) :
  (0 <? V) = true -> (0 <? D) = true ->
  let w := half_root (V / D / 3) in
  pow_half (V / D / 3) = Real w /\
  rect_lwd V D = Ok (Real (3 * w), Real w, D) /\
  _rect V D = Ok [("Length (m)", fmt_1f (3 * w)); ("Width (m)", fmt_1f w);
                  ("Depth (m)", fmt_1f D)] /\
  (last_bit_accurate L -> near_root (sqrt (V / D / 3)) w).
Proof.
  intros HV HD w.
  apply ltb_0_pos in HV, HD.
  assert (nonneg (V / D / 3) = true) as Hn.
  { apply div_nonneg; [|exact pos_3].
    apply div_nonneg; [now apply pos_nonneg | exact HD]. }
  assert (pow_half (V / D / 3) = Real w) as Hw
    by now apply pow_half_nonneg.
  assert (rect_lwd V D = Ok (Real (3 * w), Real w, D)) as HR.
  { unfold rect_lwd, truediv. rewrite (pos_eqb_0 D HD). cbn [bind].
    rewrite Hw. reflexivity. }
  repeat split; [exact Hw | exact HR | | ].
  - unfold _rect. rewrite HR. reflexivity.
  - intros HL. now apply half_root_near.
Qed.

Lemma C7_witness_large_basin :
  let V := 27155.553749999995 in
  let D := 4.5 in
  ((0 <? V) = true /\ (0 <? D) = true) /\
  V / D / 3 = 2011.5224999999998 /\
  @rect_lwd libm_glibc_points V D
    = Ok (Real 134.54999999999998, Real 44.849999999999994, D) /\
  @_rect libm_glibc_points V D
    = Ok [("Length (m)", "134.5"); ("Width (m)", "44.8");
          ("Depth (m)", "4.5")] /\
  near_root (sqrt (V / D / 3)) 44.849999999999994 /\
  sqrt (V / D / 3) = 44.85.
Proof.
  split; [split; reflexivity|]. split; [reflexivity|].
  destruct (@C7_rect_width_is_the_half_power libm_glibc_points
              27155.553749999995 4.5 eq_refl eq_refl)
    as (_ & HR & HD & Hn).
  split; [exact HR|]. split; [exact HD|].
  split; [exact (Hn glibc_points_accurate) | reflexivity].
Defined.

(** C8.  The specification has every design rule return a metrics
    mapping of exactly five entries.  No design rule returns at all: on
    every influent each of the four ends in an exception, since the
    mapping is completed by [_air_demand], which always raises. *)
Theorem C8_no_design_rule_returns_metrics {L : Libm} (inf : Influent) :
  returns (calc_cas C_class inf) = false /\
  returns (calc_ifas C_class inf) = false /\
  returns (calc_mbr C_class inf) = false /\
  returns (calc_mbbr C_class inf) = false /\
  returns (metrics C_class inf eff_cas) = false.
Proof.
  destruct (calc_class_returns inf) as (H1 & H2 & H3 & H4).
  pose proof (metrics_class_returns inf eff_cas) as H5. tauto.
Qed.

(** C9.  Two influents that agree on flow, unit, BOD and TKN get the same
    result from every design rule and from the air-demand model,
    whatever their TSS and TP are, and whatever [C] is bound to: the two
    fields are never read. *)
Theorem C9_tss_and_tp_are_not_consumed {L : Libm}
    (C : Cfield -> attr) (f : float) (u : string)
    (b t s p s' p' : float) (eff : dict float) :
  let inf := mkInfluent f u b s t p in
  let inf' := mkInfluent f u b s' t p' in
  calc_cas C inf = calc_cas C inf' /\
  calc_ifas C inf = calc_ifas C inf' /\
  calc_mbr C inf = calc_mbr C inf' /\
  calc_mbbr C inf = calc_mbbr C inf' /\
  _air_demand C inf eff = _air_demand C inf' eff /\
  m3d C inf = m3d C inf'.
Proof. repeat split. Qed.

(** C10.  The specification's outputs would scale with the raw flow.
    The program has no outputs to scale: for every factor [k] and every
    influent, the design rules and the air-demand model end in an
    exception on the scaled influent as on the original one. *)
Theorem C10_no_outputs_to_scale {L : Libm} (k : float) (inf : Influent)
    (eff : dict float) :
  returns (calc_cas C_class (scale_flow k inf)) = false /\
  returns (calc_ifas C_class (scale_flow k inf)) = false /\
  returns (calc_mbr C_class (scale_flow k inf)) = false /\
  returns (calc_mbbr C_class (scale_flow k inf)) = false /\
  returns (_air_demand C_class (scale_flow k inf) eff) = false /\
  calc_cas C_class (scale_flow 2 inf_500) = Raise TypeError /\
  calc_cas C_class inf_500 = Raise TypeError.
Proof.
  destruct (calc_class_returns (scale_flow k inf)) as (H1 & H2 & H3 & H4).
  pose proof (air_demand_class_returns (scale_flow k inf) eff) as H5.
  repeat split; assumption.
Qed.

(** * Further properties of the engine *)

(** ** Multiplying by one *)

Lemma digits2_shift_52 (m : positive) :
  Zpos (digits2_pos (Pos.iter xO m 52)) = (Zpos (digits2_pos m) + 52)%Z.
Proof. cbn. lia. Qed.

Lemma mul_two_power_52 (m : positive) :
  (m * 4503599627370496)%positive = Pos.iter xO m 52.
Proof. rewrite Pos.mul_comm. reflexivity. Qed.

(** The product of a finite float with one is rounded to the float
    itself: the mantissa comes back after a shift of 52 bits. *)
Lemma SFmul_one (s : bool) (m : positive) (e : Z) :
  bounded prec emax m e = true ->
  SF64mul (S754_finite s m e) (S754_finite false 4503599627370496 (-52))
  = S754_finite s m e.
Proof.
  intros Hb. unfold SF64mul, SFmul.
  apply andb_prop in Hb as [Hc He].
  unfold canonical_mantissa in Hc. apply Z.eqb_eq in Hc.
  rewrite mul_two_power_52.
  unfold binary_round_aux, shr_fexp, Zdigits2. rewrite digits2_shift_52.
  replace (Z.pos (digits2_pos m) + 52 + (e + -52))%Z
    with (Z.pos (digits2_pos m) + e)%Z by lia.
  rewrite Hc.
  replace (e - (e + -52))%Z with 52%Z by lia.
  cbn -[fexp Z.add Z.sub Z.leb emax prec].
  replace (e + -52 + 52)%Z with e by lia.
  rewrite Hc, Z.sub_diag. cbn -[Z.leb emax prec Z.sub].
  rewrite He. destruct s; reflexivity.
Qed.

(** [x * 1.0] is [x]: for every finite float, both zeros and both
    infinities, and NaN times one is NaN. *)
Lemma mul_1_r (x : float) : x * 1 = x.
Proof.
  apply Prim2SF_inj. rewrite mul_spec.
  change (Prim2SF 1) with (S754_finite false 4503599627370496 (-52)).
  pose proof (Prim2SF_valid x) as Hv.
  destruct (Prim2SF x) as [s|s| |s m e]; try (destruct s; reflexivity).
  - reflexivity.
  - now apply SFmul_one.
Qed.

(** A float at least a tenth is positive. *)
Lemma leb_tenth_pos (x : float) : (0.1 <=? x) = true -> pos x = true.
Proof.
  rewrite leb_spec. unfold pos.
  destruct (Prim2SF x) as [s|s| |s m e]; try destruct s; cbn; congruence.
Qed.

(** ** The daily flow and the design rules on the class binding *)

Lemma recognized_m3d (u : string) :
  String.eqb u u_m3d = true -> recognized u = true.
Proof. unfold recognized. intros ->. apply orb_true_r. Qed.

Lemma m3d_class_eq (inf : Influent) :
  m3d C_class inf =
    if String.eqb (unit inf) u_m3d then Ok (flow inf)
    else if recognized (unit inf) then Raise TypeError
    else Raise KeyError.
Proof.
  rewrite m3d_cases. unfold recognized.
  rewrite (String.eqb_sym u_MGD), (String.eqb_sym u_MLD),
    (String.eqb_sym u_m3d), mul_1_r.
  destruct (String.eqb_spec (unit inf) u_MGD) as [->|]; [reflexivity|].
  destruct (String.eqb_spec (unit inf) u_MLD) as [->|]; [reflexivity|].
  destruct (String.eqb (unit inf) u_m3d); reflexivity.
Qed.

Lemma metrics_class_TypeError (inf : Influent) :
  metrics C_class inf eff_cas = Raise TypeError /\
  metrics C_class inf eff_ifas = Raise TypeError /\
  metrics C_class inf eff_mbr = Raise TypeError /\
  metrics C_class inf eff_mbbr = Raise TypeError.
Proof. repeat split. Qed.

Section Class_rules.

Context {L : Libm}.

Lemma calc_clarified_class (inf : Influent) :
  calc_cas C_class inf = Raise (clarified_exn inf 24) /\
  calc_ifas C_class inf = Raise (clarified_exn inf 28).
Proof.
  unfold calc_cas, calc_ifas, clarified_exn.
  destruct (metrics_class_TypeError inf) as (-> & -> & _ & _).
  rewrite m3d_class_eq.
  destruct (String.eqb (unit inf) u_m3d) eqn:Eu.
  - rewrite (recognized_m3d _ Eu). cbn [bind negb andb].
    rewrite !rect_at_default_depth. cbn [bind].
    unfold _circ, circ_d, math_sqrt.
    destruct (flow inf / 24 / math_pi <? 0), (flow inf / 28 / math_pi <? 0);
      split; reflexivity.
  - destruct (recognized (unit inf)); split; reflexivity.
Qed.

Lemma calc_membrane_class (inf : Influent) :
  calc_mbr C_class inf
    = Raise (if recognized (unit inf) then TypeError else KeyError) /\
  calc_mbbr C_class inf
    = Raise (if recognized (unit inf) then TypeError else KeyError).
Proof.
  unfold calc_mbr, calc_mbbr.
  destruct (metrics_class_TypeError inf) as (_ & _ & -> & ->).
  rewrite m3d_class_eq.
  destruct (String.eqb (unit inf) u_m3d) eqn:Eu.
  - rewrite (recognized_m3d _ Eu). cbn [bind].
    rewrite !rect_at_default_depth. split; reflexivity.
  - destruct (recognized (unit inf)); split; reflexivity.
Qed.

End Class_rules.

(** ** The labels of the metrics *)

Lemma length_append (s1 s2 : string) :
  String.length (s1 ++ s2) = (String.length s1 + String.length s2)%nat.
Proof. induction s1 as [|c s1 IH]; cbn; [reflexivity | now rewrite IH]. Qed.

Lemma append_inv_tail (s k1 k2 : string) : k1 ++ s = k2 ++ s -> k1 = k2.
Proof.
  revert k2. induction k1 as [|c k1 IH]; intros [|c2 k2] H; cbn in H.
  - reflexivity.
  - apply (f_equal String.length) in H. cbn in H.
    rewrite length_append in H. lia.
  - apply (f_equal String.length) in H. cbn in H.
    rewrite length_append in H. lia.
  - injection H as -> H. f_equal. now apply IH.
Qed.

(** Two keys with the same label are the same key. *)
Lemma effluent_label_inj (k1 k2 : string) :
  effluent_label k1 = effluent_label k2 -> k1 = k2.
Proof.
  unfold effluent_label. cbn. intros H.
  injection H as H. now apply append_inv_tail in H.
Qed.

(** No label is the key of the air demand. *)
Lemma effluent_label_not_air (k : string) : effluent_label k <> k_air.
Proof. unfold effluent_label. cbn. discriminate. Qed.

Lemma setitem_fresh {V : Type} (d : dict V) (k : string) (v : V) :
  ~ In k (map fst d) -> setitem d k v = (d ++ [(k, v)])%list.
Proof.
  induction d as [|[k' v'] d IH]; cbn; intros Hk; [reflexivity|].
  destruct (String.eqb_spec k' k) as [->|_]; [tauto|].
  rewrite IH; tauto.
Qed.

Lemma labelled_keys (eff : dict float) (k : string) :
  In (effluent_label k) (map fst (labelled eff)) <-> In k (map fst eff).
Proof.
  unfold labelled. rewrite map_map. cbn [fst].
  rewrite !in_map_iff. split.
  - intros ([k' v] & H & Hin). apply effluent_label_inj in H. cbn in H.
    subst. now exists (k, v).
  - intros ([k' v] & H & Hin). cbn in H. subst. now exists (k, v).
Qed.

Lemma labelled_app (d1 d2 : dict float) :
  labelled (d1 ++ d2)%list = (labelled d1 ++ labelled d2)%list.
Proof. apply map_app. Qed.

(** The comprehension, from any point of its run: entries labelled so
    far, entries to come. *)
Lemma effluent_entries_from (done todo : dict float) :
  NoDup (map fst (done ++ todo)%list) ->
  fold_left (fun res kv => setitem res (effluent_label (fst kv)) (snd kv))
            todo (labelled done)
  = labelled (done ++ todo)%list.
Proof.
  revert done. induction todo as [|[k v] todo IH]; intros done Hnd.
  - now rewrite app_nil_r.
  - cbn [fold_left fst snd].
    rewrite setitem_fresh.
    + change (labelled done ++ [(effluent_label k, v)])%list
        with (labelled done ++ labelled [(k, v)])%list.
      rewrite <- labelled_app.
      replace (done ++ (k, v) :: todo)%list
        with ((done ++ [(k, v)]) ++ todo)%list in *
        by now rewrite <- app_assoc.
      now apply IH.
    + rewrite labelled_keys. rewrite map_app in Hnd. cbn in Hnd.
      apply NoDup_remove_2 in Hnd. rewrite in_app_iff in Hnd. tauto.
Qed.

Lemma effluent_entries_labelled (eff : dict float) :
  NoDup (map fst eff) -> effluent_entries eff = labelled eff.
Proof. intros H. now apply (effluent_entries_from [] eff). Qed.

Lemma air_not_labelled (eff : dict float) :
  ~ In k_air (map fst (labelled eff)).
Proof.
  unfold labelled. rewrite map_map, in_map_iff. cbn [fst].
  intros ([k v] & H & _). now apply effluent_label_not_air in H.
Qed.

Lemma getitem_labelled (eff : dict float) (k : string) :
  getitem (labelled eff) (effluent_label k) = getitem eff k.
Proof.
  unfold labelled.
  induction eff as [|[k' v] eff IH]; cbn [map getitem fst snd];
    [reflexivity|].
  destruct (String.eqb_spec k' k) as [->|Hk].
  - now rewrite String.eqb_refl.
  - destruct (String.eqb_spec (effluent_label k') (effluent_label k)) as [H|_];
      [apply effluent_label_inj in H; contradiction | exact IH].
Qed.

(** ** A volume of zero *)

Lemma eqb_0_zero (x : float) :
  (x =? 0) = true -> exists s, Prim2SF x = S754_zero s.
Proof.
  rewrite eqb_spec, Prim2SF_zero.
  destruct (Prim2SF x) as [s|s| |s m e]; try destruct s; cbn;
    try discriminate; eauto.
Qed.

(** Zero divided by a float that is neither zero nor NaN is a zero. *)
Lemma zero_div (x y : float) :
  (x =? 0) = true -> (y =? 0) = false -> is_nan y = false ->
  (x / y =? 0) = true.
Proof.
  intros Hx Hy Hn. apply eqb_0_zero in Hx as [s Hx].
  unfold is_nan in Hn. revert Hy Hn.
  rewrite !eqb_spec, div_spec, Hx, Prim2SF_zero.
  destruct (Prim2SF y) as [sy|sy| |sy my ey]; cbn;
    try discriminate; reflexivity.
Qed.

Lemma pow_half_zero {L : Libm} (x : float) :
  (x =? 0) = true -> scale 3 (pow_half x) = Real 0 /\ pow_half x = Real 0.
Proof.
  intros Hx. apply eqb_0_zero in Hx as [[] Hx].
  - assert (x = -0) as -> by (apply Prim2SF_inj; rewrite Hx; reflexivity).
    split; reflexivity.
  - assert (x = 0) as -> by (apply Prim2SF_inj; rewrite Hx; reflexivity).
    split; reflexivity.
Qed.

(** ** What the program does beyond the claims *)

(** On the unit m³/day the canonical daily flow is the raw flow itself,
    whatever [C] is bound to: the factor of that unit is the literal
    [1.0] of the table, not an attribute of [C], and [flow * 1.0] is
    [flow] for every finite flow, for a zero of either sign and for an
    infinity; a NaN flow gives NaN (binary64 has a single NaN here, so
    the payload of a NaN is not followed). *)
Theorem m3d_of_cubic_metres_is_the_flow
    (C : Cfield -> attr) (f b s t p : float) :
  m3d C (mkInfluent f u_m3d b s t p) = Ok f.
Proof. rewrite m3d_cases. cbn. now rewrite mul_1_r. Qed.

(** The canonical daily flow of the program, on every influent: the flow
    for m³/day, [TypeError] for MGD and MLD whatever the flow, [KeyError]
    for any other unit. *)
Theorem m3d_class_by_unit (inf : Influent) :
  m3d C_class inf =
    if String.eqb (unit inf) u_m3d then Ok (flow inf)
    else if String.eqb (unit inf) u_MGD || String.eqb (unit inf) u_MLD
         then Raise TypeError
    else Raise KeyError.
Proof.
  rewrite m3d_class_eq. unfold recognized.
  destruct (String.eqb (unit inf) u_m3d); [reflexivity|].
  now rewrite orb_false_r.
Qed.

(** The air-demand model of the program raises [KeyError] exactly when
    the effluent mapping lacks the key BOD or the key TKN, and
    [TypeError] otherwise; the unit, the flow and the concentrations do
    not matter. *)
Theorem air_demand_class_by_keys (inf : Influent) (eff : dict float) :
  _air_demand C_class inf eff =
    if has_key eff k_BOD && has_key eff k_TKN then Raise TypeError
    else Raise KeyError.
Proof.
  unfold _air_demand, has_key.
  destruct (getitem eff k_BOD) as [eb|e] eqn:Hb; cbn [bind returns andb].
  - destruct (getitem eff k_TKN) as [et|e] eqn:Ht; cbn [bind returns].
    + reflexivity.
    + now rewrite (getitem_raises _ _ _ Ht).
  - now rewrite (getitem_raises _ _ _ Hb).
Qed.

(** Whatever [C] is bound to, a design rule can fail only through the
    daily flow, then the clarifier (CAS and IFAS), then the air demand:
    sizing a zone at the default depth never fails.  When none of them
    fails the rule returns its name, the volume [q * HRT / 24], its zones
    in order and the four table values followed by the air demand. *)
Theorem design_rules_normal_form {L : Libm}
    (C : Cfield -> attr) (inf : Influent) :
  calc_cas C inf =
    (q <- m3d C inf ;;
     clar <- _circ (q / 24) 4.5 ;;
     air <- _air_demand C inf eff_cas ;;
     Ok (mkSizing "CAS" (q * 6 / 24)
           [("Anoxic", rect_default (q * 6 / 24 * 0.3));
            ("Aerobic", rect_default (q * 6 / 24 * 0.7));
            ("Clarifier", clar)],
         [("Effluent BOD (mg/L)", 10); ("Effluent TSS (mg/L)", 12);
          ("Effluent TKN (mg/L)", 8); ("Effluent TP (mg/L)", 2);
          (k_air, air)])) /\
  calc_ifas C inf =
    (q <- m3d C inf ;;
     clar <- _circ (q / 28) 4.5 ;;
     air <- _air_demand C inf eff_ifas ;;
     Ok (mkSizing "IFAS" (q * 6 / 24)
           [("Anoxic", rect_default (q * 6 / 24 * 0.3));
            ("IFAS", rect_default (q * 6 / 24 * 0.7));
            ("Clarifier", clar)],
         [("Effluent BOD (mg/L)", 8); ("Effluent TSS (mg/L)", 10);
          ("Effluent TKN (mg/L)", 5); ("Effluent TP (mg/L)", 1.5);
          (k_air, air)])) /\
  calc_mbr C inf =
    (q <- m3d C inf ;;
     air <- _air_demand C inf eff_mbr ;;
     Ok (mkSizing "MBR" (q * 5 / 24)
           [("Anoxic", rect_default (q * 5 / 24 * 0.4));
            ("MBR", rect_default (q * 5 / 24 * 0.6))],
         [("Effluent BOD (mg/L)", 5); ("Effluent TSS (mg/L)", 1);
          ("Effluent TKN (mg/L)", 4); ("Effluent TP (mg/L)", 1);
          (k_air, air)])) /\
  calc_mbbr C inf =
    (q <- m3d C inf ;;
     air <- _air_demand C inf eff_mbbr ;;
     Ok (mkSizing "MBBR" (q * 4 / 24)
           [("MBBR", rect_default (q * 4 / 24))],
         [("Effluent BOD (mg/L)", 15); ("Effluent TSS (mg/L)", 20);
          ("Effluent TKN (mg/L)", 10); ("Effluent TP (mg/L)", 2.5);
          (k_air, air)])).
Proof.
  unfold calc_cas, calc_ifas, calc_mbr, calc_mbbr, metrics.
  destruct (m3d C inf) as [q|e]; cbn [bind]; [|repeat split].
  rewrite !rect_at_default_depth. cbn [bind].
  destruct (_circ (q / 24) 4.5), (_circ (q / 28) 4.5),
    (_air_demand C inf eff_cas), (_air_demand C inf eff_ifas),
    (_air_demand C inf eff_mbr), (_air_demand C inf eff_mbbr);
    repeat split.
Qed.

(** The exception each design rule of the program ends in, on every
    influent: [KeyError] for an unknown unit; for CAS and IFAS on m³/day
    a [ValueError] of the clarifier when the surface flow/24 (flow/28)
    divided by pi is negative; [TypeError] in every other case. *)
Theorem design_rules_class_exception {L : Libm} (inf : Influent) :
  calc_cas C_class inf = Raise (clarified_exn inf 24) /\
  calc_ifas C_class inf = Raise (clarified_exn inf 28) /\
  calc_mbr C_class inf
    = Raise (if recognized (unit inf) then TypeError else KeyError) /\
  calc_mbbr C_class inf
    = Raise (if recognized (unit inf) then TypeError else KeyError).
Proof.
  destruct (calc_clarified_class inf) as [H1 H2].
  destruct (calc_membrane_class inf) as [H3 H4]. tauto.
Qed.

(** On every influent that the sidebar can build (a unit of the
    selection box, each number within the bounds of its input widget)
    each of the four design rules raises [TypeError]. *)
Theorem sidebar_influent_raises_TypeError {L : Libm} (inf : Influent) :
  sidebar_influent inf = true ->
  calc_cas C_class inf = Raise TypeError /\
  calc_ifas C_class inf = Raise TypeError /\
  calc_mbr C_class inf = Raise TypeError /\
  calc_mbbr C_class inf = Raise TypeError.
Proof.
  unfold sidebar_influent. intros H.
  do 9 (apply andb_prop in H as [H _]).
  apply andb_prop in H as [Hu Hf].
  apply leb_tenth_pos in Hf.
  assert (forall d, pos d = true -> (flow inf / d / math_pi <? 0) = false)
    as Hd.
  { intros d Hpos. apply nonneg_ltb_0, div_nonneg; [|exact pos_pi].
    apply div_nonneg; [now apply pos_nonneg | exact Hpos]. }
  destruct (calc_clarified_class inf) as [H1 H2].
  destruct (calc_membrane_class inf) as [H3 H4].
  rewrite H1, H2, H3, H4. unfold clarified_exn.
  rewrite Hu, (Hd 24 eq_refl), (Hd 28 eq_refl), andb_false_r.
  repeat split.
Qed.

Lemma sidebar_defaults_raise_TypeError :
  sidebar_influent inf_default = true /\
  calc_cas C_class inf_default = Raise TypeError /\
  calc_ifas C_class inf_default = Raise TypeError /\
  calc_mbr C_class inf_default = Raise TypeError /\
  calc_mbbr C_class inf_default = Raise TypeError.
Proof.
  split; [reflexivity|].
  exact (sidebar_influent_raises_TypeError inf_default eq_refl).
Defined.

(** The labelled copy of an effluent table keeps the entries of the
    table in their order, each under the label [Effluent k (mg/L)] of its
    key [k]. *)
Theorem effluent_entries_keeps_the_table (eff : dict float) :
  NoDup (map fst eff) ->
  effluent_entries eff = labelled eff /\
  List.length (effluent_entries eff) = List.length eff.
Proof.
  intros H. rewrite (effluent_entries_labelled eff H).
  split; [reflexivity | apply List.length_map].
Qed.

Lemma effluent_entries_of_cas :
  NoDup (map fst eff_cas) /\
  effluent_entries eff_cas = labelled eff_cas /\
  List.length (effluent_entries eff_cas) = List.length eff_cas.
Proof.
  assert (NoDup (map fst eff_cas)) as H.
  { repeat constructor; cbn; intuition discriminate. }
  split; [exact H | exact (effluent_entries_keeps_the_table eff_cas H)].
Defined.

(** Looking a label up in the labelled copy finds what the key holds in
    the table, and fails with [KeyError] when the table lacks the key. *)
Theorem effluent_entries_lookup (eff : dict float) (k : string) :
  NoDup (map fst eff) ->
  getitem (effluent_entries eff) (effluent_label k) = getitem eff k.
Proof.
  intros H. rewrite (effluent_entries_labelled eff H).
  apply getitem_labelled.
Qed.

Lemma effluent_entries_lookup_TKN :
  NoDup (map fst eff_mbr) /\
  getitem (effluent_entries eff_mbr) (effluent_label k_TKN) = Ok 4 /\
  getitem (effluent_entries eff_mbr) (effluent_label "COD")
    = Raise KeyError.
Proof.
  assert (NoDup (map fst eff_mbr)) as H.
  { repeat constructor; cbn; intuition discriminate. }
  split; [exact H|]. split.
  - exact (effluent_entries_lookup eff_mbr k_TKN H).
  - exact (effluent_entries_lookup eff_mbr "COD" H).
Defined.

(** Whatever [C] is bound to, the air demand is stored after the
    labelled entries of the effluent table and overwrites none of them:
    the metrics have one entry more than the table. *)
Theorem metrics_appends_the_air_demand
    (C : Cfield -> attr) (inf : Influent) (eff : dict float) :
  NoDup (map fst eff) ->
  metrics C inf eff =
    (air <- _air_demand C inf eff ;;
     Ok (labelled eff ++ [(k_air, air)])%list).
Proof.
  intros H. unfold metrics. rewrite (effluent_entries_labelled eff H).
  destruct (_air_demand C inf eff) as [a|e]; cbn [bind]; [|reflexivity].
  now rewrite (setitem_fresh _ _ _ (air_not_labelled eff)).
Qed.

Lemma metrics_of_mbbr_on_an_instance :
  NoDup (map fst eff_mbbr) /\
  metrics C_instance inf_500 eff_mbbr
    = Ok [("Effluent BOD (mg/L)", 15); ("Effluent TSS (mg/L)", 20);
          ("Effluent TKN (mg/L)", 10); ("Effluent TP (mg/L)", 2.5);
          (k_air, 119.63406052076003)] /\
  metrics C_class inf_500 eff_mbbr = Raise TypeError.
Proof.
  assert (NoDup (map fst eff_mbbr)) as H.
  { repeat constructor; cbn; intuition discriminate. }
  split; [exact H|]. split.
  - rewrite (metrics_appends_the_air_demand C_instance inf_500 eff_mbbr H).
    reflexivity.
  - rewrite (metrics_appends_the_air_demand C_class inf_500 eff_mbbr H).
    reflexivity.
Defined.

(** A volume of zero, of either sign, at a depth that is neither zero
    nor NaN is sized to a basin of length and width zero: no error is
    raised. *)
Theorem rect_of_zero_volume {L : Libm} (V D : float) :
  (V =? 0) = true -> (D =? 0) = false -> is_nan D = false ->
  rect_lwd V D = Ok (Real 0, Real 0, D) /\
  _rect V D = Ok [("Length (m)", "0.0"); ("Width (m)", "0.0");
                  ("Depth (m)", fmt_1f D)].
Proof.
  intros HV HD Hn.
  assert (rect_lwd V D = Ok (Real 0, Real 0, D)) as HR.
  { unfold rect_lwd, truediv. rewrite HD. cbn [bind].
    assert ((V / D / 3 =? 0) = true) as Hz.
    { apply zero_div; [now apply zero_div | reflexivity | reflexivity]. }
    destruct (pow_half_zero _ Hz) as [-> ->]. reflexivity. }
  split; [exact HR|]. unfold _rect. rewrite HR. reflexivity.
Qed.

Lemma rect_of_negative_zero_volume :
  ((-0 =? 0) = true /\ (4.5 =? 0) = false /\ is_nan 4.5 = false) /\
  rect_lwd (-0) 4.5 = Ok (Real 0, Real 0, 4.5) /\
  _rect (-0) 4.5 = Ok [("Length (m)", "0.0"); ("Width (m)", "0.0");
                       ("Depth (m)", "4.5")].
Proof.
  split; [repeat split|].
  exact (rect_of_zero_volume (-0) 4.5 eq_refl eq_refl eq_refl).
Defined.

(** For a strictly positive area the circular helper returns the
    diameter [2 * sqrt (A / pi)] and the side-water depth it was given,
    each formatted to one decimal; the depth plays no other part. *)
Theorem circ_of_positive_area (A D : float) :
  (0 <? A) = true ->
  circ_d A = Ok (2 * sqrt (A / math_pi)) /\
  _circ A D = Ok [("Diameter (m)", fmt_1f (2 * sqrt (A / math_pi)));
                  ("SWD (m)", fmt_1f D)].
Proof.
  intros HA.
  assert (circ_d A = Ok (2 * sqrt (A / math_pi))) as Hd.
  { unfold circ_d, math_sqrt. rewrite nonneg_ltb_0; [reflexivity|].
    apply div_nonneg; [|exact pos_pi].
    now apply pos_nonneg, ltb_0_pos. }
  split; [exact Hd|]. unfold _circ. now rewrite Hd.
Qed.

Lemma circ_of_the_default_clarifier :
  (0 <? 3785.41 / 24) = true /\
  circ_d (3785.41 / 24) = Ok 14.171176299440726 /\
  _circ (3785.41 / 24) 4.5
    = Ok [("Diameter (m)", "14.2"); ("SWD (m)", "4.5")].
Proof.
  split; [reflexivity|].
  destruct (circ_of_positive_area (3785.41 / 24) 4.5 eq_refl) as [Hd Hc].
  split; [exact Hd | exact Hc].
Defined.
